(** * The session router of the translator bot (src/bot.py)

    A shallow embedding of the handlers of [bot.py]: the process-wide
    [user_data] mapping, the language catalog, the keyboards and the five
    handler functions, together with the handler registration of [main].

    Conventions of the embedding.
    - A Python [str] is a [string] holding its UTF-8 bytes.  Equality,
      concatenation and splitting on the ASCII character ['_'] agree with
      the code-point operations of Python on such strings, because no byte
      of a multi-byte UTF-8 sequence is below 128.
    - [user_data] is a [gmap] from user ids (Python [int], here [Z]) to
      preference records.  Every record the program creates has exactly
      the keys ['target_language'] and ['mode'], hence a two-field record.
    - A handler is a computation in the monad [M]: it threads the world
      (the mapping and the trace of effects performed so far) and either
      returns or raises a Python exception.  Nothing is rolled back when an
      exception is raised.
    - The chat transport ([reply_text], [answer], [edit_message_text]) and
      the logger are recorded in the trace and return normally.
    - The translation library ([deep_translator]) is not part of the
      repository: its import inside [translate_text], the constructor
      [GoogleTranslator] and the method [translate] are parameters of the
      development, each of which either returns or raises.  What they raise
      is an instance of [Exception], which is what [except Exception]
      catches; [KeyboardInterrupt] and the like are outside the model.
    - The handlers take the sender and the text of the update as
      arguments.  An update that is not a [message] (an edited message, a
      channel post) has no [update.message] or no [update.effective_user]:
      what the handlers do on it is given by separate definitions, and
      [route] says which update reaches which handler. *)

From Stdlib Require Import Ascii String ZArith.
From stdpp Require Import gmap strings list pretty.

Open Scope string_scope.
Open Scope list_scope.

(** ** Python strings *)

Module PyStr.

Definition nl : string := String (ascii_of_nat 10) EmptyString.

(** [s.split(sep)] for a one-character separator: the segments between
    the occurrences of [sep], empty segments included. *)
Fixpoint split (sep : ascii) (s : string) : list string :=
  match s with
  | EmptyString => [EmptyString]
  | String c s' =>
      if Ascii.eqb c sep then EmptyString :: split sep s'
      else match split sep s' with
           | [] => [String c EmptyString]
           | seg :: segs => String c seg :: segs
           end
  end.

(** [sep.join(segs)] *)
Fixpoint join (sep : ascii) (segs : list string) : string :=
  match segs with
  | [] => EmptyString
  | [seg] => seg
  | seg :: segs' => seg +:+ String sep (join sep segs')
  end.

(** [re.match('^' + p, s)] for a literal [p]: [s] starts with [p]. *)
Definition startswith (p s : string) : bool := String.prefix p s.

End PyStr.

(** ** Exceptions and the handler monad *)

Record Exception := mkException { exc_class : string; exc_str : string }.

Definition IndexError : Exception :=
  mkException "IndexError" "list index out of range".

Definition KeyError (key : Z) : Exception :=
  mkException "KeyError" (pretty key).

(** [None.attr]: reading an attribute of [None] *)
Definition AttributeError (attr : string) : Exception :=
  mkException "AttributeError"
    ("'NoneType' object has no attribute '" +:+ attr +:+ "'").

(** ** Data model *)

Record UserPreference := mkPref { target_language : string; mode : string }.

Record KeyboardButton := mkKeyboardButton { kb_text : string }.

Record InlineKeyboardButton :=
  mkInlineKeyboardButton { ib_text : string; callback_data : string }.

Inductive Markup :=
| ReplyKeyboardMarkup (keyboard : list (list KeyboardButton)) (resize_keyboard : bool)
| InlineKeyboardMarkup (keyboard : list (list InlineKeyboardButton)).

(** What a handler does to the outside, in program order.  [UserDataRead]
    records a lookup of a user's record in [user_data] ([.get] or a
    subscript) and whether the record was there. *)
Inductive Effect :=
| ReplyText (text : string) (reply_markup : option Markup)
| Answer
| EditMessageText (text : string)
| LoggerError (msg : string)
| NewGoogleTranslator (source target : string)
| Translate (text : string)
| UserDataRead (user_id : Z) (present : bool).

#[global] Instance KeyboardButton_eq_dec : EqDecision KeyboardButton.
Proof. solve_decision. Defined.

#[global] Instance InlineKeyboardButton_eq_dec : EqDecision InlineKeyboardButton.
Proof. solve_decision. Defined.

#[global] Instance Markup_eq_dec : EqDecision Markup.
Proof. solve_decision. Defined.

#[global] Instance Effect_eq_dec : EqDecision Effect.
Proof. solve_decision. Defined.

Record World := mkWorld { user_data : gmap Z UserPreference; trace : list Effect }.

Definition M (A : Type) : Type := World → (Exception + A) * World.

#[global] Instance M_ret : MRet M := λ A a w, (inr a, w).

#[global] Instance M_bind : MBind M := λ A B f m w,
  match m w with
  | (inr a, w') => f a w'
  | (inl e, w') => (inl e, w')
  end.

Definition raise {A} (e : Exception) : M A := λ w, (inl e, w).

(** [try: body except Exception as e: handler(e)] *)
Definition try_except {A} (body : M A) (handler : Exception → M A) : M A :=
  λ w, match body w with
       | (inl e, w') => handler e w'
       | r => r
       end.

Definition emit (ev : Effect) : M unit :=
  λ w, (inr tt, mkWorld (user_data w) (trace w ++ [ev])).

(** an external call that returns or raises *)
Definition external {A} (r : Exception + A) : M A := λ w, (r, w).

(** [user_id in user_data] *)
Definition user_data_contains (user_id : Z) : M bool :=
  λ w, (inr (bool_decide (is_Some (user_data w !! user_id))), w).

(** [user_data[user_id] = pref] *)
Definition user_data_setitem (user_id : Z) (pref : UserPreference) : M unit :=
  λ w, (inr tt, mkWorld (<[user_id := pref]> (user_data w)) (trace w)).

(** [user_data.get(user_id, {})]: [None] stands for the empty dict *)
Definition user_data_get (user_id : Z) : M (option UserPreference) :=
  λ w, let r := user_data w !! user_id in
       (inr r, mkWorld (user_data w) (trace w ++ [UserDataRead user_id (bool_decide (is_Some r))])).

(** [user_data[user_id]]: raises [KeyError] when the key is absent *)
Definition user_data_getitem (user_id : Z) : M UserPreference :=
  λ w, let r := user_data w !! user_id in
       let w' := mkWorld (user_data w) (trace w ++ [UserDataRead user_id (bool_decide (is_Some r))]) in
       match r with
       | Some pref => (inr pref, w')
       | None => (inl (KeyError user_id), w')
       end.

(** [l[i]] on a list: raises [IndexError] out of range *)
Definition list_getitem {A} (l : list A) (i : nat) : M A :=
  match l !! i with
  | Some x => mret x
  | None => raise IndexError
  end.

(** ** The language catalog and the keyboards *)

(** [LANGUAGES]: a dict literal, iterated in insertion order. *)
Definition LANGUAGES : list (string * string) :=
  [ ("uz", "🇺🇿 O'zbekcha");
    ("en", "🇬🇧 English");
    ("ru", "🇷🇺 Русский");
    ("tr", "🇹🇷 Türkçe");
    ("ar", "🇸🇦 العربية");
    ("es", "🇪🇸 Español") ].

(** [d.get(key, default)] on a dict given by its items *)
Fixpoint dict_get (d : list (string * string)) (key default : string) : string :=
  match d with
  | [] => default
  | (k, v) :: d' => if String.eqb k key then v else dict_get d' key default
  end.

Definition get_main_keyboard : Markup :=
  ReplyKeyboardMarkup
    [ [mkKeyboardButton "🌍 Tarjima"; mkKeyboardButton "⚙️ Sozlamalar"];
      [mkKeyboardButton "ℹ️ Yordam"] ]
    true.

(** [range(start, stop, step)] for a positive [step]: count up from
    [start] while below [stop].  At most [stop] numbers are produced. *)
Fixpoint range_loop (fuel start stop step : nat) : list nat :=
  match fuel with
  | O => []
  | S fuel' =>
      if (start <? stop)%nat
      then start :: range_loop fuel' (start + step) stop step
      else []
  end.

Definition range (start stop step : nat) : list nat :=
  range_loop stop start stop step.

(** [InlineKeyboardButton(lang[1], callback_data=f'lang_{lang[0]}')] *)
Definition language_button (lang : string * string) : InlineKeyboardButton :=
  mkInlineKeyboardButton lang.2 ("lang_" +:+ lang.1).

(** The body of the loop of [get_language_keyboard] at index [i]: the row
    of [langs[i]] and, when [i + 1 < len(langs)], of [langs[i+1]]. *)
Definition language_row (langs : list (string * string)) (i : nat)
  : list InlineKeyboardButton :=
  match langs !! i with
  | None => []
  | Some lang =>
      language_button lang ::
      (if (i + 1 <? length langs)%nat
       then match langs !! (i + 1)%nat with
            | Some lang' => [language_button lang']
            | None => []
            end
       else [])
  end.

Definition language_rows (langs : list (string * string))
  : list (list InlineKeyboardButton) :=
  language_row langs <$> range 0 (length langs) 2.

Definition get_language_keyboard : Markup :=
  InlineKeyboardMarkup (language_rows LANGUAGES).

(** ** The handlers *)

Definition default_pref : UserPreference := mkPref "en" "translate".

Definition welcome_text : string :=
  PyStr.nl +:+
  "🤖 Assalomu aleykum! Men tarjimon botman!" +:+ PyStr.nl +:+
  PyStr.nl +:+
  "✨ Imkoniyatlar:" +:+ PyStr.nl +:+
  "• 🌍 Matnlarni tarjima qilish" +:+ PyStr.nl +:+
  "• ⚙️ Tilni tanlash" +:+ PyStr.nl +:+
  "• 🆓 Bepul xizmat" +:+ PyStr.nl +:+
  PyStr.nl +:+
  "Matn yuboring, tarjima qilaman! 🚀" +:+ PyStr.nl +:+
  "    ".

Definition help_text : string :=
  PyStr.nl +:+
  "📖 Qo'llanma:" +:+ PyStr.nl +:+
  PyStr.nl +:+
  "1️⃣ 🌍 Tarjima - Matn yuboring" +:+ PyStr.nl +:+
  "2️⃣ ⚙️ Sozlamalar - Tilni tanlang" +:+ PyStr.nl +:+
  "3️⃣ ℹ️ Yordam - Bu xabar" +:+ PyStr.nl +:+
  PyStr.nl +:+
  "Faqat matn yuboring, avtomatik tarjima bo'ladi! 😊" +:+ PyStr.nl +:+
  "    ".

Definition failure_message : string :=
  "❌ Tarjima xatoligi. Qaytadan urinib ko'ring.".

(** [if user_id not in user_data: user_data[user_id] = {...}] *)
Definition ensure_record (user_id : Z) : M unit :=
  known ← user_data_contains user_id;
  if negb known then user_data_setitem user_id default_pref else mret tt.

Definition start (user_id : Z) : M unit :=
  ensure_record user_id;;
  emit (ReplyText welcome_text (Some get_main_keyboard)).

Definition settings : M unit :=
  emit (ReplyText "⚙️ Tarjima tilini tanlang:" (Some get_language_keyboard)).

Definition help_command : M unit :=
  emit (ReplyText help_text None).

Definition language_callback (user_id : Z) (data : string) : M unit :=
  emit Answer;;
  lang_code ← list_getitem (PyStr.split "_" data) 1;
  ensure_record user_id;;
  pref ← user_data_getitem user_id;
  user_data_setitem user_id (mkPref lang_code (mode pref));;
  let lang_name := dict_get LANGUAGES lang_code "Unknown" in
  emit (EditMessageText
          ("✅ Til o'rnatildi: " +:+ lang_name +:+ PyStr.nl +:+ PyStr.nl +:+
           "Matn yuboring!")).

(** The updates on which a handler registered in [main] runs, as the
    handler sees them.  The first four are the updates the handlers are
    written for: a message that is the command [/start] or [/help], a
    message with a text that is no command, and a callback query (handled
    only when its data matches ['^lang_']).  The transport also hands the
    handlers updates that are not a [message]: for an edited message
    [update.message] is [None], and for a channel post (edited or not)
    [update.effective_user] is [None] as well. *)
Inductive Event :=
| StartCommand (user_id : Z)
| HelpCommand (user_id : Z)
| TextMessage (user_id : Z) (text : string)
| CallbackQuery (user_id : Z) (data : string)
| EditedStartCommand (user_id : Z)
| EditedHelpCommand (user_id : Z)
| EditedTextMessage (user_id : Z) (text : string)
| ChannelPost (text : string).

(** [update.effective_user.id], when there is a user *)
Definition event_user (ev : Event) : option Z :=
  match ev with
  | StartCommand u | HelpCommand u | TextMessage u _ | CallbackQuery u _
  | EditedStartCommand u | EditedHelpCommand u | EditedTextMessage u _ => Some u
  | ChannelPost _ => None
  end.

(** [start] on an edited message: the lines up to the welcome text run as
    for a message, then [update.message.reply_text] fails. *)
Definition start_without_message (user_id : Z) : M unit :=
  ensure_record user_id;;
  raise (AttributeError "reply_text").

(** [help_command] on an edited message: [update.message.reply_text] fails. *)
Definition help_command_without_message : M unit :=
  raise (AttributeError "reply_text").

(** [handle_message] on an edited message: [update.effective_user.id] is
    read, then [update.message.text] fails, before anything is written. *)
Definition handle_message_without_message : M unit :=
  raise (AttributeError "text").

(** [handle_message] on a channel post: [update.effective_user.id] fails. *)
Definition handle_message_without_user : M unit :=
  raise (AttributeError "id").




(** The mapping after a callback whose language code is [code]. *)
Definition set_language (user_id : Z) (code : string)
    (m : gmap Z UserPreference) : gmap Z UserPreference :=
  <[user_id := mkPref code (mode (default default_pref (m !! user_id)))]> m.

Definition confirmation (code : string) : string :=
  "✅ Til o'rnatildi: " +:+ dict_get LANGUAGES code "Unknown" +:+
  PyStr.nl +:+ PyStr.nl +:+ "Matn yuboring!".

(** ** Vocabulary of the statements *)

(** The mapping after [if user_id not in user_data: user_data[user_id] = {...}]. *)
Definition with_record (user_id : Z) (m : gmap Z UserPreference)
  : gmap Z UserPreference :=
  match m !! user_id with
  | Some _ => m
  | None => <[user_id := default_pref]> m
  end.

(** The target language the translation of a message of [user_id] uses. *)
Definition stored_target (user_id : Z) (m : gmap Z UserPreference) : string :=
  match m !! user_id with
  | Some pref => target_language pref
  | None => "en"
  end.

(** The labels of the main menu, which [handle_message] does not translate. *)
Definition menu_labels : list string :=
  match get_main_keyboard with
  | ReplyKeyboardMarkup keyboard _ => kb_text <$> concat keyboard
  | InlineKeyboardMarkup _ => []
  end.

(** The effects a computation adds to the trace when run in [w]. *)
Definition performed {A} (m : M A) (w : World) : list Effect :=
  drop (length (trace w)) (trace (m w).2).

Definition is_collaborator_call (ev : Effect) : bool :=
  match ev with
  | NewGoogleTranslator _ _ | Translate _ => true
  | _ => false
  end.

(** The calls into the translation library among some effects. *)
Definition collaborator_calls (evs : list Effect) : list Effect :=
  List.filter is_collaborator_call evs.

Definition is_reply (ev : Effect) : bool :=
  match ev with
  | ReplyText _ _ | EditMessageText _ => true
  | _ => false
  end.

(** What the handler sent to the chat among some effects. *)
Definition replies (evs : list Effect) : list Effect :=
  List.filter is_reply evs.

Definition is_read (ev : Effect) : bool :=
  match ev with
  | UserDataRead _ _ => true
  | _ => false
  end.

(** The lookups of records among some effects. *)
Definition reads (evs : list Effect) : list Effect :=
  List.filter is_read evs.

(** A list cut into rows of two, the last row holding one element when
    the length is odd: the layout the settings keyboard is meant to have. *)
Fixpoint rows_of_two {A} (l : list A) : list (list A) :=
  match l with
  | [] => []
  | [a] => [[a]]
  | a :: b :: l' => [a; b] :: rows_of_two l'
  end.

Definition is_callback (ev : Event) : bool :=
  match ev with
  | CallbackQuery _ _ => true
  | _ => false
  end.

Section Router.

(** The translation library: [from deep_translator import GoogleTranslator]
    returns or raises, [GoogleTranslator(source=, target=)] builds a
    translator object or raises, [translator.translate(text)] returns the
    translated text or raises. *)
Context {Translator : Type}.
Variable import_GoogleTranslator : Exception + unit.
Variable GoogleTranslator : string → string → Exception + Translator.
Variable translate : Translator → string → Exception + string.

(** The translation of [text] into [target] raises [e]: the import of
    the library does, or after it the construction of the translator, or
    after that its [translate] method. *)
Definition collaborator_raises (target text : string) (e : Exception) : Prop :=
  import_GoogleTranslator = inl e ∨
  (import_GoogleTranslator = inr tt ∧
   (GoogleTranslator "auto" target = inl e ∨
    ∃ translator, GoogleTranslator "auto" target = inr translator ∧
                  translate translator text = inl e)).

(** The effects of the [try] statement of [translate_text]. *)
Definition translation_effects (target text : string) : list Effect :=
  let failed e :=
    [LoggerError ("Translation error: " +:+ exc_str e);
     ReplyText failure_message None] in
  match import_GoogleTranslator with
  | inl e => failed e
  | inr _ =>
      NewGoogleTranslator "auto" target ::
      match GoogleTranslator "auto" target with
      | inl e => failed e
      | inr translator =>
          Translate text ::
          match translate translator text with
          | inl e => failed e
          | inr translated =>
              [ReplyText ("🌍 Tarjima:" +:+ PyStr.nl +:+ PyStr.nl +:+ translated)
                 None]
          end
      end
  end.

Definition translate_text (user_id : Z) (text : string) : M unit :=
  record ← user_data_get user_id;
  let target_lang :=
    match record with
    | Some pref => target_language pref
    | None => "en"
    end in
  try_except
    (external import_GoogleTranslator;;
     emit (NewGoogleTranslator "auto" target_lang);;
     translator ← external (GoogleTranslator "auto" target_lang);
     emit (Translate text);;
     translated ← external (translate translator text);
     let response := "🌍 Tarjima:" +:+ PyStr.nl +:+ PyStr.nl +:+ translated in
     emit (ReplyText response None))
    (λ e,
       emit (LoggerError ("Translation error: " +:+ exc_str e));;
       emit (ReplyText failure_message None)).

Definition handle_message (user_id : Z) (text : string) : M unit :=
  ensure_record user_id;;
  if String.eqb text "🌍 Tarjima" then
    emit (ReplyText "Matn yuboring, tarjima qilaman!" None)
  else if String.eqb text "⚙️ Sozlamalar" then
    settings
  else if String.eqb text "ℹ️ Yordam" then
    help_command
  else
    translate_text user_id text.

Definition dispatch (ev : Event) : M unit :=
  match ev with
  | StartCommand user_id => start user_id
  | HelpCommand _ => help_command
  | TextMessage user_id text => handle_message user_id text
  | CallbackQuery user_id data =>
      if PyStr.startswith "lang_" data then language_callback user_id data
      else mret tt
  | EditedStartCommand user_id => start_without_message user_id
  | EditedHelpCommand _ => help_command_without_message
  | EditedTextMessage _ _ => handle_message_without_message
  | ChannelPost _ => handle_message_without_user
  end.


End Router.

(** A test double of the translation library: construction raises for a
    target language outside the catalog, and translation echoes the text
    between brackets. *)
Module Mock.

Definition import_GoogleTranslator : Exception + unit := inr tt.

(** The library is not installed. *)
Definition failing_import : Exception + unit :=
  inl (mkException "ModuleNotFoundError" "No module named 'deep_translator'").

Definition GoogleTranslator (source target : string) : Exception + string :=
  if bool_decide (target ∈ LANGUAGES.*1) then inr target
  else inl (mkException "LanguageNotSupportedException" target).

Definition translate (translator text : string) : Exception + string :=
  inr ("[" +:+ translator +:+ "] " +:+ text).

(** A translator whose [translate] always fails. *)
Definition failing_translate (translator text : string) : Exception + string :=
  inl (mkException "RequestError" "Request exception can happen due to an api connection error.").

Definition empty_world : World := mkWorld ∅ [].

End Mock.

(** ** Sequences of events *)

(** The number of occurrences of a character in a string. *)
Fixpoint count_char (c : ascii) (s : string) : nat :=
  match s with
  | EmptyString => O
  | String c' s' => (if Ascii.eqb c' c then 1 else 0) + count_char c s'
  end.

(** The language code a callback query carries for [language_callback]:
    the second segment of its data, when the data matches ['^lang_']. *)
Definition parsed_code (data : string) : option string :=
  if PyStr.startswith "lang_" data then PyStr.split "_" data !! 1%nat else None.


(** The events whose handler reaches
    [if user_id not in user_data: user_data[user_id] = {...}]. *)
Definition creates_record (ev : Event) : bool :=
  match ev with
  | StartCommand _ | TextMessage _ _ | EditedStartCommand _ => true
  | HelpCommand _ | EditedHelpCommand _ | EditedTextMessage _ _
  | ChannelPost _ => false
  | CallbackQuery _ data => PyStr.startswith "lang_" data
  end.

(** The language [user_id] chooses with the event, if it is a callback
    query of that user handled by [language_callback]. *)
Definition choice_of (user_id : Z) (ev : Event) : option string :=
  match ev with
  | CallbackQuery u data => if bool_decide (u = user_id) then parsed_code data else None
  | _ => None
  end.

(** The most recent choice of [user_id] in a sequence of events. *)
Fixpoint last_choice (user_id : Z) (evs : list Event) : option string :=
  match evs with
  | [] => None
  | ev :: evs' =>
      match last_choice user_id evs' with
      | Some code => Some code
      | None => choice_of user_id ev
      end
  end.

(** The application built in [main] handles the updates it receives one
    after the other; an exception of a handler does not stop it, the next
    update is handled in the world the handler left. *)
Fixpoint process_updates {Translator}
    (import_GoogleTranslator : Exception + unit)
    (GoogleTranslator : string → string → Exception + Translator)
    (translate : Translator → string → Exception + string)
    (evs : list Event) (w : World) : World :=
  match evs with
  | [] => w
  | ev :: evs' =>
      process_updates import_GoogleTranslator GoogleTranslator translate evs'
        (dispatch import_GoogleTranslator GoogleTranslator translate ev w).2
  end.

(** ** Loading the token at start-up *)

Module Startup.




End Startup.

(** Unfolding the monad operations. *)
Ltac run_M :=
  unfold mbind, M_bind, mret, M_ret, raise, emit, external, try_except,
    user_data_contains, user_data_setitem, user_data_get, user_data_getitem;
  simpl.

(** * Properties *)

(** ** Splitting *)

Lemma split_not_nil sep s : PyStr.split sep s ≠ [].
Proof.
  destruct s as [|c s]; simpl; [done|].
  destruct (Ascii.eqb c sep); [done|].
  by destruct (PyStr.split sep s).
Qed.

(** Joining the segments again gives the string back: [split] loses
    nothing and invents nothing. *)
Lemma join_split sep s : PyStr.join sep (PyStr.split sep s) = s.
Proof.
  induction s as [|c s IH]; simpl; [done|].
  destruct (Ascii.eqb_spec c sep) as [->|Hne].
  - pose proof (split_not_nil sep s) as Hnil.
    destruct (PyStr.split sep s) as [|seg segs] eqn:E; [done|].
    simpl. by rewrite <- IH.
  - pose proof (split_not_nil sep s) as Hnil.
    destruct (PyStr.split sep s) as [|seg segs] eqn:E; [done|].
    simpl in *. destruct segs; simpl; by rewrite <- IH.
Qed.

Lemma split_lang_prefix rest :
  PyStr.split "_" ("lang_" +:+ rest) = "lang" :: PyStr.split "_" rest.
Proof. reflexivity. Qed.

Lemma startswith_app p s :
  PyStr.startswith p s = true → ∃ rest, s = p +:+ rest.
Proof.
  unfold PyStr.startswith. revert s.
  induction p as [|a p IH]; intros s H.
  - by exists s.
  - destruct s as [|b s]; simpl in H; [done|].
    destruct (ascii_dec a b) as [->|]; [|done].
    destruct (IH s H) as [rest ->]. by exists rest.
Qed.

Lemma startswith_lang_app rest : PyStr.startswith "lang_" ("lang_" +:+ rest) = true.
Proof.
  unfold PyStr.startswith. simpl.
  repeat (destruct (ascii_dec _ _); [|congruence]). by destruct rest.
Qed.

(** Every string matched by ['^lang_'] has a second segment. *)
Lemma split_matched_second data :
  PyStr.startswith "lang_" data = true →
  ∃ rest seg segs,
    data = "lang_" +:+ rest ∧ PyStr.split "_" rest = seg :: segs ∧
    PyStr.split "_" data !! 1%nat = Some seg.
Proof.
  intros [rest ->]%startswith_app.
  pose proof (split_not_nil "_" rest) as Hnil.
  destruct (PyStr.split "_" rest) as [|seg segs] eqn:E; [done|].
  exists rest, seg, segs. by rewrite split_lang_prefix, E.
Qed.

(** ** The two outcomes of the language callback *)


Lemma language_callback_parsed user_id data code w :
  PyStr.split "_" data !! 1%nat = Some code →
  language_callback user_id data w =
    (inr tt,
     mkWorld (set_language user_id code (user_data w))
             (trace w ++ [Answer; UserDataRead user_id true;
                          EditMessageText (confirmation code)])).
Proof.
  intros Hcode. unfold language_callback, list_getitem, ensure_record.
  rewrite Hcode. run_M. unfold set_language.
  destruct (user_data w !! user_id) as [pref|] eqn:E; simpl.
  - rewrite E. simpl. by rewrite <- !app_assoc.
  - rewrite lookup_insert_eq. simpl.
    rewrite insert_insert_eq. by rewrite <- !app_assoc.
Qed.

Lemma language_callback_unparsed user_id data w :
  PyStr.split "_" data !! 1%nat = None →
  language_callback user_id data w =
    (inl IndexError, mkWorld (user_data w) (trace w ++ [Answer])).
Proof.
  intros Hcode. unfold language_callback, list_getitem.
  rewrite Hcode. by run_M.
Qed.

(** ** What each handler does *)

Lemma performed_app {A} (m : M A) w r w' evs :
  m w = (r, w') → trace w' = trace w ++ evs → performed m w = evs.
Proof.
  intros Hrun Htrace. unfold performed. rewrite Hrun. simpl.
  rewrite Htrace. apply drop_app_length.
Qed.

Lemma performed_silent {A} (m : M A) w :
  trace (m w).2 = trace w → performed m w = [].
Proof. unfold performed. intros ->. apply drop_all. Qed.

Lemma ensure_record_run user_id w :
  ensure_record user_id w =
    (inr tt, mkWorld (with_record user_id (user_data w)) (trace w)).
Proof.
  unfold ensure_record, with_record. run_M.
  destruct (user_data w !! user_id) as [pref|]; simpl; [|done].
  by destruct w.
Qed.

Lemma start_without_message_run user_id w :
  start_without_message user_id w =
    (inl (AttributeError "reply_text"),
     mkWorld (with_record user_id (user_data w)) (trace w)).
Proof.
  unfold start_without_message. unfold mbind at 1, M_bind.
  by rewrite ensure_record_run.
Qed.

Lemma start_run user_id w :
  start user_id w =
    (inr tt, mkWorld (with_record user_id (user_data w))
                     (trace w ++ [ReplyText welcome_text (Some get_main_keyboard)])).
Proof.
  unfold start. unfold mbind at 1, M_bind. by rewrite ensure_record_run.
Qed.

Lemma with_record_lookup user_id m :
  with_record user_id m !! user_id = Some (default default_pref (m !! user_id)).
Proof.
  unfold with_record. destruct (m !! user_id) as [pref|] eqn:E; simpl; [done|].
  apply lookup_insert_eq.
Qed.

Lemma with_record_other user_id u m :
  u ≠ user_id → with_record user_id m !! u = m !! u.
Proof.
  intros Hne. unfold with_record.
  destruct (m !! user_id); [done|]. by rewrite lookup_insert_ne.
Qed.

Lemma with_record_keeps user_id u pref m :
  m !! u = Some pref → with_record user_id m !! u = Some pref.
Proof.
  intros Hu. destruct (decide (u = user_id)) as [->|Hne].
  - by rewrite with_record_lookup, Hu.
  - by rewrite with_record_other.
Qed.

Lemma stored_target_with_record user_id m :
  stored_target user_id (with_record user_id m) = stored_target user_id m.
Proof.
  unfold stored_target. rewrite with_record_lookup.
  by destruct (m !! user_id).
Qed.

Section RouterFacts.

Context {Translator : Type}.
Variable import_GoogleTranslator : Exception + unit.
Variable GoogleTranslator : string → string → Exception + Translator.
Variable translate : Translator → string → Exception + string.

Lemma translate_text_run user_id text w :
  translate_text
        import_GoogleTranslator GoogleTranslator translate user_id text w =
    (inr tt,
     mkWorld (user_data w)
       (trace w ++
        UserDataRead user_id (bool_decide (is_Some (user_data w !! user_id))) ::
        translation_effects import_GoogleTranslator GoogleTranslator translate
          (stored_target user_id (user_data w)) text)).
Proof.
  unfold translate_text, translation_effects, stored_target. run_M.
  destruct (user_data w !! user_id) as [pref|]; simpl.
  all: destruct import_GoogleTranslator as [e|[]]; simpl;
    [by rewrite <- !app_assoc|].
  all: destruct (GoogleTranslator _ _) as [e|translator]; simpl;
    [by rewrite <- !app_assoc|].
  all: destruct (translate translator text) as [e|translated]; simpl;
    by rewrite <- !app_assoc.
Qed.

Lemma handle_message_free_text user_id text w :
  text ∉ menu_labels →
  handle_message
        import_GoogleTranslator GoogleTranslator translate user_id text w =
    (inr tt,
     mkWorld (with_record user_id (user_data w))
       (trace w ++
        UserDataRead user_id true ::
        translation_effects import_GoogleTranslator GoogleTranslator translate
          (stored_target user_id (user_data w)) text)).
Proof.
  intros Hfree. unfold handle_message.
  unfold mbind at 1, M_bind. rewrite ensure_record_run.
  assert (∀ label, label ∈ menu_labels → String.eqb text label = false) as Hneq.
  { intros label Hin. apply String.eqb_neq. by intros ->. }
  rewrite !Hneq by (vm_compute; set_solver).
  rewrite translate_text_run. simpl.
  by rewrite with_record_lookup, stored_target_with_record.
Qed.

End RouterFacts.

Section MenuLabels.

Context {Translator : Type}.
Variable import_GoogleTranslator : Exception + unit.
Variable GoogleTranslator : string → string → Exception + Translator.
Variable translate : Translator → string → Exception + string.

Lemma handle_message_prompt user_id w :
  handle_message
        import_GoogleTranslator GoogleTranslator translate user_id "🌍 Tarjima" w =
    (inr tt,
     mkWorld (with_record user_id (user_data w))
       (trace w ++ [ReplyText "Matn yuboring, tarjima qilaman!" None])).
Proof.
  unfold handle_message. unfold mbind at 1, M_bind.
  by rewrite ensure_record_run.
Qed.

Lemma handle_message_settings user_id w :
  handle_message
        import_GoogleTranslator GoogleTranslator translate user_id "⚙️ Sozlamalar" w =
    settings (mkWorld (with_record user_id (user_data w)) (trace w)).
Proof.
  unfold handle_message. unfold mbind at 1, M_bind.
  by rewrite ensure_record_run.
Qed.

Lemma handle_message_help user_id w :
  handle_message
        import_GoogleTranslator GoogleTranslator translate user_id "ℹ️ Yordam" w =
    help_command (mkWorld (with_record user_id (user_data w)) (trace w)).
Proof.
  unfold handle_message. unfold mbind at 1, M_bind.
  by rewrite ensure_record_run.
Qed.

(** Whatever the text, the handler returns, and the mapping afterwards is
    the one before with the sender's record added if it was missing. *)
Lemma handle_message_store user_id text w :
  (handle_message
        import_GoogleTranslator GoogleTranslator translate user_id text w).1 = inr tt ∧
  user_data (handle_message
        import_GoogleTranslator GoogleTranslator translate user_id text w).2 =
    with_record user_id (user_data w).
Proof.
  destruct (decide (text ∈ menu_labels)) as [Hin|Hfree].
  - vm_compute in Hin.
    repeat (apply elem_of_cons in Hin as [->|Hin]);
      [by rewrite handle_message_prompt
      |by rewrite handle_message_settings
      |by rewrite handle_message_help
      |by apply elem_of_nil in Hin].
  - by rewrite handle_message_free_text.
Qed.

End MenuLabels.

Lemma dict_get_absent d key default :
  key ∉ d.*1 → dict_get d key default = default.
Proof.
  induction d as [|[k v] d IH]; simpl; [done|].
  intros Hnotin. apply not_elem_of_cons in Hnotin as [Hne Hnotin].
  destruct (String.eqb_spec k key) as [->|_]; [done|]. by apply IH.
Qed.

Lemma set_language_lookup user_id code m :
  target_language <$> set_language user_id code m !! user_id = Some code.
Proof. unfold set_language. by rewrite lookup_insert_eq. Qed.

Lemma set_language_twice user_id code m :
  set_language user_id code (set_language user_id code m) =
  set_language user_id code m.
Proof.
  unfold set_language at 1. unfold set_language at 1.
  rewrite lookup_insert_eq. simpl. unfold set_language.
  by rewrite insert_insert_eq.
Qed.

Lemma catalog_code_splits c :
  c ∈ LANGUAGES.*1 → PyStr.split "_" ("lang_" +:+ c) !! 1%nat = Some c.
Proof.
  intros Hc. rewrite split_lang_prefix. simpl in Hc.
  repeat (apply elem_of_cons in Hc as [->|Hc]; [reflexivity|]).
  by apply elem_of_nil in Hc.
Qed.

(** ** The language keyboard *)

Lemma range_loop_done fuel start stop step :
  (stop ≤ start)%nat → range_loop fuel start stop step = [].
Proof.
  intros Hle. destruct fuel as [|fuel]; simpl; [done|].
  by rewrite (proj2 (Nat.ltb_ge start stop)).
Qed.

(** The loop over [range(0, len(langs), 2)], started anywhere in the list:
    [pre] is the part of the list already laid out. *)
Lemma language_rows_from fuel :
  ∀ pre langs : list (string * string),
    (length langs ≤ fuel)%nat →
    language_row (pre ++ langs) <$>
      range_loop fuel (length pre) (length pre + length langs) 2 =
    rows_of_two (language_button <$> langs).
Proof.
  induction fuel as [|fuel IH]; intros pre langs Hfuel.
  - destruct langs; simpl in *; [done|lia].
  - destruct langs as [|a [|b langs]].
    + simpl. by rewrite (proj2 (Nat.ltb_ge _ _)) by lia.
    + simpl. rewrite (proj2 (Nat.ltb_lt _ _)) by lia. simpl.
      rewrite range_loop_done by lia. simpl.
      unfold language_row. rewrite list_lookup_middle by done.
      by rewrite (proj2 (Nat.ltb_ge _ _)) by (rewrite length_app; simpl; lia).
    + cbn [range_loop]. rewrite (proj2 (Nat.ltb_lt _ _)) by (simpl; lia).
      cbn [fmap list_fmap rows_of_two]. f_equal.
      * unfold language_row. rewrite list_lookup_middle by done.
        rewrite (proj2 (Nat.ltb_lt _ _)) by (rewrite length_app; simpl; lia).
        replace (pre ++ a :: b :: langs) with ((pre ++ [a]) ++ b :: langs)
          by by rewrite <- app_assoc.
        rewrite list_lookup_middle by (rewrite length_app; simpl; lia).
        done.
      * specialize (IH (pre ++ [a; b]) langs).
        rewrite <- app_assoc in IH. simpl in IH.
        rewrite length_app in IH. simpl in IH.
        replace (length pre + length (a :: b :: langs))%nat
          with (length pre + 2 + length langs)%nat by (simpl; lia).
        apply IH. simpl in Hfuel. lia.
Qed.

Lemma language_rows_by_two langs :
  language_rows langs = rows_of_two (language_button <$> langs).
Proof.
  unfold language_rows, range.
  by apply (language_rows_from (length langs) [] langs).
Qed.

(** Induction two elements at a time. *)
Lemma list_pair_ind {A} (P : list A → Prop) :
  P [] → (∀ a, P [a]) → (∀ a b l, P l → P (a :: b :: l)) → ∀ l, P l.
Proof.
  intros Hnil Hone Htwo l.
  cut (P l ∧ ∀ a, P (a :: l)); [by intros [? _]|].
  induction l as [|b l [IHl IHbl]]; split; auto.
Qed.

Lemma concat_rows_of_two {A} (l : list A) : concat (rows_of_two l) = l.
Proof.
  induction l as [|a|a b l IH] using list_pair_ind; simpl; [done..|].
  by rewrite IH.
Qed.

Lemma rows_of_two_even {A} (l : list A) :
  Nat.Even (length l) → Forall (λ row, length row = 2%nat) (rows_of_two l).
Proof.
  induction l as [|a|a b l IH] using list_pair_ind; simpl; intros [k Hk].
  - constructor.
  - lia.
  - constructor; [done|]. apply IH. exists (k - 1)%nat. lia.
Qed.

Lemma translation_effects_reads {Translator}
    (import_GoogleTranslator : Exception + unit)
    (GoogleTranslator : string → string → Exception + Translator)
    (translate : Translator → string → Exception + string) target text :
  reads (translation_effects import_GoogleTranslator GoogleTranslator translate
           target text) = [].
Proof.
  unfold translation_effects.
  destruct import_GoogleTranslator as [e|[]]; [done|].
  destruct (GoogleTranslator _ _) as [e|translator]; [done|].
  by destruct (translate translator text).
Qed.

(** ** The mapping and the lookups of a whole event *)

Section Events.

Context {Translator : Type}.
Variable import_GoogleTranslator : Exception + unit.
Variable GoogleTranslator : string → string → Exception + Translator.
Variable translate : Translator → string → Exception + string.

Lemma dispatch_store ev w :
  user_data (dispatch
        import_GoogleTranslator GoogleTranslator translate ev w).2 =
    match ev with
    | StartCommand u | TextMessage u _ | EditedStartCommand u =>
        with_record u (user_data w)
    | HelpCommand _ | EditedHelpCommand _ | EditedTextMessage _ _
    | ChannelPost _ => user_data w
    | CallbackQuery u data =>
        if PyStr.startswith "lang_" data
        then match PyStr.split "_" data !! 1%nat with
             | Some code => set_language u code (user_data w)
             | None => user_data w
             end
        else user_data w
    end.
Proof.
  destruct ev as [u|u|u text|u data|u|u|u text|text]; simpl; try done.
  - by rewrite start_run.
  - apply handle_message_store.
  - destruct (PyStr.startswith "lang_" data); [|done].
    destruct (PyStr.split "_" data !! 1%nat) as [code|] eqn:Hcode.
    + by rewrite (language_callback_parsed _ _ code).
    + by rewrite language_callback_unparsed.
  - by rewrite start_without_message_run.
Qed.

Lemma dispatch_reads ev w :
  reads (performed (dispatch
        import_GoogleTranslator GoogleTranslator translate ev) w) =
    match ev with
    | StartCommand _ | HelpCommand _ | EditedStartCommand _
    | EditedHelpCommand _ | EditedTextMessage _ _ | ChannelPost _ => []
    | TextMessage u text =>
        if bool_decide (text ∈ menu_labels) then [] else [UserDataRead u true]
    | CallbackQuery u data =>
        if PyStr.startswith "lang_" data then [UserDataRead u true] else []
    end.
Proof.
  destruct ev as [u|u|u text|u data|u|u|u text|text]; simpl;
    [| | | |rewrite performed_silent; [done|by rewrite start_without_message_run]
     |by rewrite performed_silent..].
  - by rewrite (performed_app _ _ _ _ _ (start_run u w) eq_refl).
  - by rewrite (performed_app help_command w _ _ _ eq_refl eq_refl).
  - case_bool_decide as Hlabel.
    + vm_compute in Hlabel.
      repeat (apply elem_of_cons in Hlabel as [->|Hlabel]);
        [| | |by apply elem_of_nil in Hlabel].
      * by rewrite (performed_app _ _ _ _ _
                      (handle_message_prompt
                            import_GoogleTranslator GoogleTranslator translate u w)
                      eq_refl).
      * by rewrite (performed_app _ _ _ _ _
                      (handle_message_settings
                            import_GoogleTranslator GoogleTranslator translate u w)
                      eq_refl).
      * by rewrite (performed_app _ _ _ _ _
                      (handle_message_help
                            import_GoogleTranslator GoogleTranslator translate u w)
                      eq_refl).
    + rewrite (performed_app _ _ _ _ _
                 (handle_message_free_text
                       import_GoogleTranslator GoogleTranslator translate u text w Hlabel)
                 eq_refl).
      change (reads (UserDataRead u true :: ?evs))
        with (UserDataRead u true :: reads evs).
      by rewrite translation_effects_reads.
  - destruct (PyStr.startswith "lang_" data) eqn:Hmatch.
    + destruct (split_matched_second data Hmatch)
        as (rest & seg & segs & _ & _ & Hcode).
      by rewrite (performed_app _ _ _ _ _
                    (language_callback_parsed u data seg w Hcode) eq_refl).
    + unfold performed. simpl. by rewrite drop_all.
Qed.

End Events.

(** * The claims *)

(** C1.  A failing translation is caught inside the text-message handler.
    For a text that is not a menu label, when the translation library
    raises [e] (at its import, at the construction of the translator or
    in [translate]), [handle_message] returns normally; the last two things it does are to
    log ["Translation error: " + str(e)] and to reply with the fixed
    failure message, and it sends no other reply. *)
Theorem translation_error_is_caught {Translator}
    (import_GoogleTranslator : Exception + unit)
    (GoogleTranslator : string → string → Exception + Translator)
    (translate : Translator → string → Exception + string)
    (user_id : Z) (text : string) (e : Exception) (w : World) :
  text ∉ menu_labels →
  collaborator_raises import_GoogleTranslator GoogleTranslator translate
    (stored_target user_id (user_data w)) text e →
  (handle_message
        import_GoogleTranslator GoogleTranslator translate user_id text w).1 = inr tt ∧
  ∃ before,
    performed (handle_message
          import_GoogleTranslator GoogleTranslator translate user_id text) w =
      before ++
      [LoggerError ("Translation error: " +:+ exc_str e);
       ReplyText "❌ Tarjima xatoligi. Qaytadan urinib ko'ring." None] ∧
    replies before = [].
Proof.
  intros Hfree Hraises.
  pose proof (handle_message_free_text
        import_GoogleTranslator GoogleTranslator translate
                user_id text w Hfree) as Hrun.
  split; [by rewrite Hrun|].
  rewrite (performed_app _ _ _ _ _ Hrun eq_refl).
  unfold translation_effects.
  destruct Hraises as [Himport|[Himport [Hnew|(translator & Hnew & Htr)]]];
    rewrite Himport; [|rewrite Hnew..].
  - by exists [UserDataRead user_id true].
  - by exists [UserDataRead user_id true;
               NewGoogleTranslator "auto" (stored_target user_id (user_data w))].
  - rewrite Htr.
    by exists [UserDataRead user_id true;
               NewGoogleTranslator "auto" (stored_target user_id (user_data w));
               Translate text].
Qed.

Lemma translation_error_is_caught_witness :
  (handle_message
        Mock.import_GoogleTranslator Mock.GoogleTranslator Mock.failing_translate
     1 "Hello" Mock.empty_world).1 = inr tt ∧
  ∃ before,
    performed (handle_message
          Mock.import_GoogleTranslator Mock.GoogleTranslator Mock.failing_translate
                 1 "Hello") Mock.empty_world =
      before ++
      [LoggerError
         ("Translation error: " +:+
          "Request exception can happen due to an api connection error.");
       ReplyText "❌ Tarjima xatoligi. Qaytadan urinib ko'ring." None] ∧
    replies before = [].
Proof.
  apply (translation_error_is_caught
        Mock.import_GoogleTranslator Mock.GoogleTranslator Mock.failing_translate
           1 "Hello"
           (mkException "RequestError"
              "Request exception can happen due to an api connection error.")
           Mock.empty_world).
  - apply (bool_decide_unpack _). vm_compute. exact I.
  - right. split; [reflexivity|]. right. exists "en". split; reflexivity.
Defined.

(** C2 (as the code has it).  The record of a user seen for the first
    time.  When the sender of an event has no record yet: after [/start]
    or a text message the record exists with target language ["en"];
    after a language callback matched by ['^lang_'] the record exists
    with the language code of the token as target language; after [/help],
    or a callback that is not matched, there is still no record.  (Of the
    updates that are not a message, an edited [/start] leaves the record
    with ["en"] before its handler fails, and the others leave none.) *)
Theorem first_event_record {Translator}
    (import_GoogleTranslator : Exception + unit)
    (GoogleTranslator : string → string → Exception + Translator)
    (translate : Translator → string → Exception + string)
    (ev : Event) (w : World) :
  match event_user ev with
  | Some u => user_data w !! u = None
  | None => True
  end →
  match ev with
  | StartCommand u | TextMessage u _ | EditedStartCommand u =>
      user_data (dispatch
            import_GoogleTranslator GoogleTranslator translate ev w).2 !! u =
        Some (mkPref "en" "translate")
  | HelpCommand u | EditedHelpCommand u | EditedTextMessage u _ =>
      user_data (dispatch
            import_GoogleTranslator GoogleTranslator translate ev w).2 !! u = None
  | ChannelPost _ =>
      user_data (dispatch
            import_GoogleTranslator GoogleTranslator translate ev w).2 =
        user_data w
  | CallbackQuery u data =>
      if PyStr.startswith "lang_" data
      then ∃ code,
             PyStr.split "_" data !! 1%nat = Some code ∧
             user_data (dispatch
                   import_GoogleTranslator GoogleTranslator translate ev w).2 !! u =
               Some (mkPref code "translate")
      else user_data (dispatch
            import_GoogleTranslator GoogleTranslator translate ev w).2 !! u = None
  end.
Proof.
  intros Hnew. rewrite dispatch_store.
  destruct ev as [u|u|u text|u data|u|u|u text|text]; simpl in Hnew; try done.
  - by rewrite with_record_lookup, Hnew.
  - by rewrite with_record_lookup, Hnew.
  - destruct (PyStr.startswith "lang_" data) eqn:Hmatch; [|done].
    destruct (split_matched_second data Hmatch)
      as (rest & seg & segs & _ & _ & Hcode).
    exists seg. split; [done|]. rewrite Hcode.
    unfold set_language. by rewrite lookup_insert_eq, Hnew.
  - by rewrite with_record_lookup, Hnew.
Qed.

Lemma first_event_record_witness :
  event_user (TextMessage 7 "Hello") = Some 7%Z ∧
  user_data Mock.empty_world !! 7%Z = None ∧
  user_data
    (dispatch
          Mock.import_GoogleTranslator Mock.GoogleTranslator Mock.translate (TextMessage 7 "Hello")
       Mock.empty_world).2 !! 7%Z = Some (mkPref "en" "translate").
Proof.
  split; [reflexivity|]. split; [reflexivity|].
  apply (first_event_record
        Mock.import_GoogleTranslator Mock.GoogleTranslator Mock.translate
           (TextMessage 7 "Hello") Mock.empty_world).
  reflexivity.
Defined.

(** C2 fails as stated.  User 7 has no record.  After [/help] as the
    first event there is still none; after the callback ["lang_ru"] as the
    first event the record has target language ["ru"], not ["en"]. *)
Lemma first_event_without_en_record :
  user_data Mock.empty_world !! 7%Z = None ∧
  user_data
    (dispatch
          Mock.import_GoogleTranslator Mock.GoogleTranslator Mock.translate (HelpCommand 7)
       Mock.empty_world).2 !! 7%Z = None ∧
  user_data
    (dispatch
          Mock.import_GoogleTranslator Mock.GoogleTranslator Mock.translate (CallbackQuery 7 "lang_ru")
       Mock.empty_world).2 !! 7%Z = Some (mkPref "ru" "translate").
Proof. repeat split; vm_compute; reflexivity. Qed.

(** C3 (as the code has it).  Every lookup finds a record.  Whatever the
    event, each lookup of a record in [user_data] that its handler makes
    is for the sender and finds the record there.  [/start], a text
    message and a matched language callback leave the sender with a
    record, which they create if it was missing; [/help] and an unmatched
    callback leave the mapping as it was, and [settings] and
    [help_command] neither look a record up nor change the mapping.  (An
    update that is not a message makes its handler fail before any
    lookup; an edited [/start] has created the record by then, the others
    have changed nothing.) *)
Theorem lookups_find_a_record {Translator}
    (import_GoogleTranslator : Exception + unit)
    (GoogleTranslator : string → string → Exception + Translator)
    (translate : Translator → string → Exception + string)
    (ev : Event) (w : World) :
  Forall (λ e, ∃ u, event_user ev = Some u ∧ e = UserDataRead u true)
    (reads (performed (dispatch
          import_GoogleTranslator GoogleTranslator translate ev) w)) ∧
  match ev with
  | StartCommand u | TextMessage u _ | EditedStartCommand u =>
      is_Some (user_data (dispatch
            import_GoogleTranslator GoogleTranslator translate ev w).2 !! u)
  | HelpCommand _ | EditedHelpCommand _ | EditedTextMessage _ _ | ChannelPost _ =>
      user_data (dispatch
            import_GoogleTranslator GoogleTranslator translate ev w).2 = user_data w
  | CallbackQuery u data =>
      if PyStr.startswith "lang_" data
      then is_Some (user_data (dispatch
            import_GoogleTranslator GoogleTranslator translate ev w).2 !! u)
      else user_data (dispatch
            import_GoogleTranslator GoogleTranslator translate ev w).2 = user_data w
  end ∧
  reads (performed settings w) = [] ∧ user_data (settings w).2 = user_data w ∧
  reads (performed help_command w) = [] ∧
  user_data (help_command w).2 = user_data w.
Proof.
  split; [|split].
  - rewrite dispatch_reads.
    destruct ev as [u|u|u text|u data|u|u|u text|text]; simpl;
      try by constructor.
    + case_bool_decide; repeat constructor. by exists u.
    + destruct (PyStr.startswith "lang_" data); repeat constructor.
      by exists u.
  - rewrite dispatch_store.
    destruct ev as [u|u|u text|u data|u|u|u text|text]; try done.
    + rewrite with_record_lookup. eauto.
    + rewrite with_record_lookup. eauto.
    + destruct (PyStr.startswith "lang_" data) eqn:Hmatch; [|done].
      destruct (split_matched_second data Hmatch)
        as (rest & seg & segs & _ & _ & Hcode).
      rewrite Hcode. unfold set_language. rewrite lookup_insert_eq. eauto.
    + rewrite with_record_lookup. eauto.
  - by rewrite (performed_app settings w _ _ _ eq_refl eq_refl),
      (performed_app help_command w _ _ _ eq_refl eq_refl).
Qed.

(** C3 fails as stated.  Not every handler creates the sender's record:
    after [/help] from user 7, who has none, the mapping has no record for
    7, and [settings] run on its own leaves the mapping empty as well. *)
Lemma help_creates_no_record :
  user_data Mock.empty_world !! 7%Z = None ∧
  (dispatch
        Mock.import_GoogleTranslator Mock.GoogleTranslator Mock.translate (HelpCommand 7)
     Mock.empty_world).1 = inr tt ∧
  user_data
    (dispatch
          Mock.import_GoogleTranslator Mock.GoogleTranslator Mock.translate (HelpCommand 7)
       Mock.empty_world).2 !! 7%Z = None ∧
  user_data (settings Mock.empty_world).2 !! 7%Z = None.
Proof. repeat split; vm_compute; reflexivity. Qed.

(** C4 (as the code has it).  What [handle_message] does with the
    translation library.  For a menu label it makes no call into the
    library, and its effects are those of the prompt reply, of [settings]
    or of [help_command].  For any other text it looks the sender's record
    up and then, inside the [try]:
    - if the import of the library raises, the translator is not
      constructed and the text is passed to nothing;
    - otherwise the translator is constructed exactly once, with source
      ["auto"] and the sender's stored target language (["en"] without a
      record); if that construction raises, the text is passed to nothing;
    - otherwise the text is passed to [translate] exactly once, and the
      reply is the translation under its header if that returns.
    Whichever of the three raises, the error is logged and the failure
    message is the reply. *)
Theorem text_message_collaborator_calls {Translator}
    (import_GoogleTranslator : Exception + unit)
    (GoogleTranslator : string → string → Exception + Translator)
    (translate : Translator → string → Exception + string)
    (user_id : Z) (text : string) (w : World) :
  if bool_decide (text ∈ menu_labels)
  then
    collaborator_calls
      (performed
         (handle_message import_GoogleTranslator GoogleTranslator translate
            user_id text) w) = [] ∧
    performed
      (handle_message import_GoogleTranslator GoogleTranslator translate
         user_id text) w =
      (if String.eqb text "🌍 Tarjima"
       then [ReplyText "Matn yuboring, tarjima qilaman!" None]
       else if String.eqb text "⚙️ Sozlamalar" then performed settings w
       else performed help_command w)
  else
    performed
      (handle_message import_GoogleTranslator GoogleTranslator translate
         user_id text) w =
      UserDataRead user_id true ::
      match import_GoogleTranslator with
      | inl e =>
          [LoggerError ("Translation error: " +:+ exc_str e);
           ReplyText "❌ Tarjima xatoligi. Qaytadan urinib ko'ring." None]
      | inr _ =>
          NewGoogleTranslator "auto" (stored_target user_id (user_data w)) ::
          match GoogleTranslator "auto" (stored_target user_id (user_data w)) with
          | inl e =>
              [LoggerError ("Translation error: " +:+ exc_str e);
               ReplyText "❌ Tarjima xatoligi. Qaytadan urinib ko'ring." None]
          | inr translator =>
              Translate text ::
              match translate translator text with
              | inl e =>
                  [LoggerError ("Translation error: " +:+ exc_str e);
                   ReplyText "❌ Tarjima xatoligi. Qaytadan urinib ko'ring." None]
              | inr translated =>
                  [ReplyText
                     ("🌍 Tarjima:" +:+ PyStr.nl +:+ PyStr.nl +:+ translated)
                     None]
              end
          end
      end ∧
    collaborator_calls
      (performed
         (handle_message import_GoogleTranslator GoogleTranslator translate
            user_id text) w) =
      match import_GoogleTranslator with
      | inl _ => []
      | inr _ =>
          NewGoogleTranslator "auto" (stored_target user_id (user_data w)) ::
          match GoogleTranslator "auto" (stored_target user_id (user_data w)) with
          | inl _ => []
          | inr _ => [Translate text]
          end
      end.
Proof.
  case_bool_decide as Hlabel.
  - vm_compute in Hlabel.
    repeat (apply elem_of_cons in Hlabel as [->|Hlabel]);
      [| | |by apply elem_of_nil in Hlabel].
    + by rewrite (performed_app _ _ _ _ _
                    (handle_message_prompt import_GoogleTranslator
                       GoogleTranslator translate user_id w)
                    eq_refl).
    + by rewrite (performed_app _ _ _ _ _
                    (handle_message_settings import_GoogleTranslator
                       GoogleTranslator translate user_id w)
                    eq_refl),
        (performed_app settings w _ _ _ eq_refl eq_refl).
    + by rewrite (performed_app _ _ _ _ _
                    (handle_message_help import_GoogleTranslator
                       GoogleTranslator translate user_id w)
                    eq_refl),
        (performed_app help_command w _ _ _ eq_refl eq_refl).
  - rewrite (performed_app _ _ _ _ _
               (handle_message_free_text import_GoogleTranslator
                  GoogleTranslator translate _ _ w Hlabel)
               eq_refl).
    unfold translation_effects.
    destruct import_GoogleTranslator as [e|[]]; [done|].
    destruct (GoogleTranslator _ _) as [e|translator]; [done|].
    by destruct (translate translator text).
Qed.

(** C4 fails as stated.  The text ["Hello"] is no menu label.  When the
    import of the library raises, the handler makes no call into the
    library at all.  When the import returns and user 1 has the stored
    target language ["xx"], for which the construction of the translator
    raises, the only call into the library is that construction:
    ["Hello"] is never passed to it. *)
Lemma failed_construction_skips_translate :
  ("Hello" ∉ menu_labels) ∧
  collaborator_calls
    (performed
       (handle_message Mock.failing_import Mock.GoogleTranslator Mock.translate
          1 "Hello")
       Mock.empty_world) = [] ∧
  collaborator_calls
    (performed
       (handle_message Mock.import_GoogleTranslator Mock.GoogleTranslator
          Mock.translate 1 "Hello")
       (mkWorld {[ 1%Z := mkPref "xx" "translate" ]} [])) =
    [NewGoogleTranslator "auto" "xx"] ∧
  (Translate "Hello" ∉
    performed
      (handle_message Mock.import_GoogleTranslator Mock.GoogleTranslator
         Mock.translate 1 "Hello")
      (mkWorld {[ 1%Z := mkPref "xx" "translate" ]} [])).
Proof.
  split; [|split; [|split]].
  - apply (bool_decide_unpack _). vm_compute. exact I.
  - vm_compute. reflexivity.
  - vm_compute. reflexivity.
  - apply (bool_decide_unpack _). vm_compute. exact I.
Qed.

(** C5.  Choosing a language of the catalog stores its code.  For every
    code [c] of [LANGUAGES] and every user, [language_callback] on the
    token ["lang_" + c] returns normally and leaves [c] as the user's
    stored target language. *)
Theorem catalog_callback_sets_code (c : string) (user_id : Z) (w : World) :
  c ∈ LANGUAGES.*1 →
  (language_callback user_id ("lang_" +:+ c) w).1 = inr tt ∧
  target_language <$>
    user_data (language_callback user_id ("lang_" +:+ c) w).2 !! user_id = Some c.
Proof.
  intros Hc. rewrite (language_callback_parsed _ _ c) by by apply catalog_code_splits.
  split; [done|]. apply set_language_lookup.
Qed.

Lemma catalog_callback_sets_code_witness :
  ("ru" ∈ LANGUAGES.*1) ∧
  (language_callback 42 "lang_ru" Mock.empty_world).1 = inr tt ∧
  target_language <$>
    user_data (language_callback 42 "lang_ru" Mock.empty_world).2 !! 42%Z
  = Some "ru".
Proof.
  split.
  - apply (bool_decide_unpack _). vm_compute. exact I.
  - apply (catalog_callback_sets_code "ru" 42 Mock.empty_world).
    apply (bool_decide_unpack _). vm_compute. exact I.
Defined.

(** C6.  A code outside the catalog is not an error.  When the second
    ['_']-separated segment of the token is a code that [LANGUAGES] does
    not have, [language_callback] returns normally, stores that code as
    the user's target language, and its one reply is the confirmation
    naming the language ["Unknown"]. *)
Theorem unknown_code_is_committed (user_id : Z) (data code : string) (w : World) :
  PyStr.split "_" data !! 1%nat = Some code →
  code ∉ LANGUAGES.*1 →
  (language_callback user_id data w).1 = inr tt ∧
  target_language <$>
    user_data (language_callback user_id data w).2 !! user_id = Some code ∧
  replies (performed (language_callback user_id data) w) =
    [EditMessageText
       ("✅ Til o'rnatildi: Unknown" +:+ PyStr.nl +:+ PyStr.nl +:+ "Matn yuboring!")].
Proof.
  intros Hcode Hunknown.
  pose proof (language_callback_parsed user_id data code w Hcode) as Hrun.
  rewrite (performed_app _ _ _ _ _ Hrun eq_refl), Hrun.
  split; [done|]. split; [apply set_language_lookup|].
  unfold confirmation. by rewrite dict_get_absent.
Qed.

Lemma unknown_code_is_committed_witness :
  PyStr.split "_" "lang_xx" !! 1%nat = Some "xx" ∧
  ("xx" ∉ LANGUAGES.*1) ∧
  (language_callback 42 "lang_xx" Mock.empty_world).1 = inr tt ∧
  target_language <$>
    user_data (language_callback 42 "lang_xx" Mock.empty_world).2 !! 42%Z
  = Some "xx" ∧
  replies (performed (language_callback 42 "lang_xx") Mock.empty_world) =
    [EditMessageText
       ("✅ Til o'rnatildi: Unknown" +:+ PyStr.nl +:+ PyStr.nl +:+ "Matn yuboring!")].
Proof.
  split; [reflexivity|]. split.
  - apply (bool_decide_unpack _). vm_compute. exact I.
  - apply (unknown_code_is_committed 42 "lang_xx" "xx" Mock.empty_world).
    + reflexivity.
    + apply (bool_decide_unpack _). vm_compute. exact I.
Defined.

(** C7.  The settings keyboard.  [settings] replies with the prompt and
    an inline keyboard whose buttons, read row by row, are the entries of
    [LANGUAGES] in catalog order, each labelled with the entry's display
    name and carrying the callback token ["lang_" + code]; the rows are
    the catalog cut in twos, which for the six languages is three rows of
    two buttons. *)
Theorem settings_keyboard_layout (w : World) :
  settings w =
    (inr tt,
     mkWorld (user_data w)
       (trace w ++
        [ReplyText "⚙️ Tarjima tilini tanlang:"
           (Some (InlineKeyboardMarkup (language_rows LANGUAGES)))])) ∧
  language_rows LANGUAGES = rows_of_two (language_button <$> LANGUAGES) ∧
  concat (language_rows LANGUAGES) =
    (λ lang, mkInlineKeyboardButton lang.2 ("lang_" +:+ lang.1)) <$> LANGUAGES ∧
  length <$> language_rows LANGUAGES = [2; 2; 2]%nat.
Proof.
  split; [done|]. split; [apply language_rows_by_two|]. split.
  - rewrite language_rows_by_two. apply concat_rows_of_two.
  - by rewrite language_rows_by_two.
Qed.

(** C8.  Only the language callback changes a stored target language.
    An event that is not a callback query ([/start], [/help], a text
    message, the settings request among them, and also an update that is
    not a message) leaves every record that exists exactly as it was, and
    leaves every user other than the sender as before, with or without a
    record. *)
Theorem only_callback_changes_language {Translator}
    (import_GoogleTranslator : Exception + unit)
    (GoogleTranslator : string → string → Exception + Translator)
    (translate : Translator → string → Exception + string)
    (ev : Event) (w : World) (u : Z) (pref : UserPreference) :
  is_callback ev = false →
  user_data w !! u = Some pref →
  user_data (dispatch
        import_GoogleTranslator GoogleTranslator translate ev w).2 !! u = Some pref ∧
  (∀ u', event_user ev ≠ Some u' →
     user_data (dispatch
           import_GoogleTranslator GoogleTranslator translate ev w).2 !! u' =
     user_data w !! u') ∧
  user_data (settings w).2 = user_data w.
Proof.
  intros Hev Hpref. rewrite dispatch_store.
  destruct ev as [v|v|v text|v data|v|v|v text|text]; try done; simpl.
  all: split; [by apply with_record_keeps|].
  all: split; [|done]; intros u' Hne; apply with_record_other; congruence.
Qed.

Lemma only_callback_changes_language_witness :
  is_callback (TextMessage 1 "Hello") = false ∧
  (mkWorld {[ 2%Z := mkPref "ru" "translate" ]} []).(user_data) !! 2%Z =
    Some (mkPref "ru" "translate") ∧
  user_data
    (dispatch
          Mock.import_GoogleTranslator Mock.GoogleTranslator Mock.translate (TextMessage 1 "Hello")
       (mkWorld {[ 2%Z := mkPref "ru" "translate" ]} [])).2 !! 2%Z =
    Some (mkPref "ru" "translate").
Proof.
  split; [reflexivity|]. split; [reflexivity|].
  apply (only_callback_changes_language
        Mock.import_GoogleTranslator Mock.GoogleTranslator Mock.translate
           (TextMessage 1 "Hello")
           (mkWorld {[ 2%Z := mkPref "ru" "translate" ]} []) 2
           (mkPref "ru" "translate")); reflexivity.
Defined.

(** C9.  The language callback is idempotent on the mapping.  Handling
    the same token for the same user twice in a row leaves the same
    mapping, hence the same stored target language, as handling it once;
    this covers the tokens on which the handler raises, which leave the
    mapping as it was. *)
Theorem language_callback_idempotent (user_id : Z) (data : string) (w : World) :
  user_data
    (language_callback user_id data (language_callback user_id data w).2).2 =
  user_data (language_callback user_id data w).2 ∧
  target_language <$>
    user_data
      (language_callback user_id data (language_callback user_id data w).2).2
    !! user_id =
  target_language <$> user_data (language_callback user_id data w).2 !! user_id.
Proof.
  cut (user_data
         (language_callback user_id data (language_callback user_id data w).2).2 =
       user_data (language_callback user_id data w).2).
  { intros ->. done. }
  destruct (PyStr.split "_" data !! 1%nat) as [code|] eqn:Hcode.
  - rewrite !(language_callback_parsed _ _ code) by done. simpl.
    apply set_language_twice.
  - by rewrite !language_callback_unparsed by done.
Qed.

(** C10.  A token matched by ['^lang_'] always parses.  Such a token
    splits on ['_'] into at least two segments, so the index 1 exists,
    and [language_callback] returns normally on it. *)
Theorem matched_token_parses (user_id : Z) (data : string) (w : World) :
  PyStr.startswith "lang_" data = true →
  (2 ≤ length (PyStr.split "_" data))%nat ∧
  is_Some (PyStr.split "_" data !! 1%nat) ∧
  (language_callback user_id data w).1 = inr tt.
Proof.
  intros (rest & seg & segs & -> & Hrest & Hcode)%split_matched_second.
  split; [|split].
  - rewrite split_lang_prefix, Hrest. simpl. lia.
  - by exists seg.
  - by rewrite (language_callback_parsed _ _ seg).
Qed.

Lemma matched_token_parses_witness :
  PyStr.startswith "lang_" "lang_" = true ∧
  (2 ≤ length (PyStr.split "_" "lang_"))%nat ∧
  is_Some (PyStr.split "_" "lang_" !! 1%nat) ∧
  (language_callback 42 "lang_" Mock.empty_world).1 = inr tt.
Proof.
  split; [reflexivity|].
  apply (matched_token_parses 42 "lang_" Mock.empty_world). reflexivity.
Defined.

(** * Further properties of the handlers *)

(** ** Splitting and the underscores of a token *)

Lemma length_split sep s :
  length (PyStr.split sep s) = S (count_char sep s).
Proof.
  induction s as [|c s IH]; simpl; [done|].
  destruct (Ascii.eqb c sep); simpl; [by rewrite IH|].
  destruct (PyStr.split sep s) as [|seg segs]; simpl in *; lia.
Qed.

Lemma split_without_sep sep s :
  count_char sep s = 0%nat → PyStr.split sep s = [s].
Proof.
  induction s as [|c s IH]; simpl; [done|].
  destruct (Ascii.eqb c sep); simpl; [lia|].
  intros Hs. by rewrite IH.
Qed.

Lemma split_at_first_sep sep s tail :
  count_char sep s = 0%nat →
  PyStr.split sep (s +:+ String sep tail) = s :: PyStr.split sep tail.
Proof.
  induction s as [|c s IH]; simpl.
  - by rewrite Ascii.eqb_refl.
  - destruct (Ascii.eqb c sep); simpl; [lia|].
    intros Hs. by rewrite IH.
Qed.

Lemma split_second_none data :
  count_char "_" data = 0%nat → PyStr.split "_" data !! 1%nat = None.
Proof.
  intros Hnone. apply lookup_ge_None. rewrite length_split. lia.
Qed.

(** X1.  What a token without an underscore does to the language
    callback.  The handler acknowledges the query and then raises
    [IndexError] at [split('_')[1]]: no message is sent or edited and the
    mapping is left as it was, without a record added for the user. *)
Theorem callback_without_underscore_raises (user_id : Z) (data : string) (w : World) :
  count_char "_" data = 0%nat →
  (language_callback user_id data w).1 = inl IndexError ∧
  performed (language_callback user_id data) w = [Answer] ∧
  user_data (language_callback user_id data w).2 = user_data w.
Proof.
  intros Hnone%split_second_none.
  pose proof (language_callback_unparsed user_id data w Hnone) as Hrun.
  by rewrite (performed_app _ _ _ _ _ Hrun eq_refl), Hrun.
Qed.

Lemma callback_without_underscore_raises_witness :
  count_char "_" "language" = 0%nat ∧
  (language_callback 42 "language" Mock.empty_world).1 = inl IndexError ∧
  performed (language_callback 42 "language") Mock.empty_world = [Answer] ∧
  user_data (language_callback 42 "language" Mock.empty_world).2 =
    user_data Mock.empty_world.
Proof.
  split; [reflexivity|].
  apply (callback_without_underscore_raises 42 "language" Mock.empty_world).
  reflexivity.
Defined.

(** X2.  Which part of the token becomes the stored language.  For a code
    [c] without an underscore, whether in the catalog or not, the tokens
    ["lang_" + c] and ["lang_" + c + "_" + tail] both store exactly [c]:
    what follows a second underscore is dropped. *)
Theorem callback_stores_second_segment (user_id : Z) (c tail : string) (w : World) :
  count_char "_" c = 0%nat →
  target_language <$>
    user_data (language_callback user_id ("lang_" +:+ c) w).2 !! user_id = Some c ∧
  target_language <$>
    user_data
      (language_callback user_id ("lang_" +:+ c +:+ String "_" tail) w).2
    !! user_id = Some c.
Proof.
  intros Hc. split.
  - rewrite (language_callback_parsed _ _ c); [apply set_language_lookup|].
    by rewrite split_lang_prefix, split_without_sep.
  - rewrite (language_callback_parsed _ _ c); [apply set_language_lookup|].
    by rewrite split_lang_prefix, split_at_first_sep.
Qed.

Lemma callback_stores_second_segment_witness :
  count_char "_" "zh" = 0%nat ∧
  target_language <$>
    user_data (language_callback 42 "lang_zh" Mock.empty_world).2 !! 42%Z
  = Some "zh" ∧
  target_language <$>
    user_data (language_callback 42 "lang_zh_CN" Mock.empty_world).2 !! 42%Z
  = Some "zh".
Proof.
  split; [reflexivity|].
  apply (callback_stores_second_segment 42 "zh" "CN" Mock.empty_world).
  reflexivity.
Defined.

(** X3.  What the language callback leaves alone.  Whatever the token,
    the first thing the handler does is to acknowledge the query; the
    records of all other users stay as they were, and a record the user
    already had keeps its mode. *)
Theorem language_callback_frame (user_id : Z) (data : string) (w : World) :
  (∃ rest, performed (language_callback user_id data) w = Answer :: rest) ∧
  (∀ u, u ≠ user_id →
     user_data (language_callback user_id data w).2 !! u = user_data w !! u) ∧
  (∀ pref, user_data w !! user_id = Some pref →
     mode <$> user_data (language_callback user_id data w).2 !! user_id =
     Some (mode pref)).
Proof.
  destruct (PyStr.split "_" data !! 1%nat) as [code|] eqn:Hcode.
  - pose proof (language_callback_parsed user_id data code w Hcode) as Hrun.
    rewrite (performed_app _ _ _ _ _ Hrun eq_refl), Hrun. simpl.
    split; [eauto|]. unfold set_language. split.
    + intros u Hne. by rewrite lookup_insert_ne.
    + intros pref Hpref. by rewrite lookup_insert_eq, Hpref.
  - pose proof (language_callback_unparsed user_id data w Hcode) as Hrun.
    rewrite (performed_app _ _ _ _ _ Hrun eq_refl), Hrun. simpl.
    split; [eauto|]. split; [done|].
    intros pref Hpref. by rewrite Hpref.
Qed.

(** ** From the keyboard to the stored language, and on to the translation *)

(** X4.  Pressing a button of the settings keyboard selects its language.
    The callback token of every button of [get_language_keyboard] is
    matched by ['^lang_']; handling it returns normally, stores the code
    of the catalog entry the button was made from, and the one reply is
    the confirmation showing the very label of the button. *)
Theorem keyboard_button_selects_its_language
    (button : InlineKeyboardButton) (user_id : Z) (w : World) :
  button ∈ concat (language_rows LANGUAGES) →
  PyStr.startswith "lang_" (callback_data button) = true ∧
  (language_callback user_id (callback_data button) w).1 = inr tt ∧
  (∃ code,
     (code, ib_text button) ∈ LANGUAGES ∧
     target_language <$>
       user_data (language_callback user_id (callback_data button) w).2
       !! user_id = Some code) ∧
  replies (performed (language_callback user_id (callback_data button)) w) =
    [EditMessageText
       ("✅ Til o'rnatildi: " +:+ ib_text button +:+ PyStr.nl +:+ PyStr.nl +:+
        "Matn yuboring!")].
Proof.
  rewrite language_rows_by_two, concat_rows_of_two.
  intros ([code label] & -> & Hlang)%list_elem_of_fmap.
  assert (PyStr.split "_" (callback_data (language_button (code, label))) !! 1%nat
          = Some code ∧ dict_get LANGUAGES code "Unknown" = label) as [Hcode Hlabel].
  { unfold LANGUAGES in Hlang.
    repeat (apply elem_of_cons in Hlang as [[= -> ->]|Hlang]; [by split|]).
    by apply elem_of_nil in Hlang. }
  pose proof (language_callback_parsed user_id _ code w Hcode) as Hrun.
  rewrite (performed_app _ _ _ _ _ Hrun eq_refl), Hrun. simpl.
  split; [apply startswith_lang_app|]. split; [done|]. split.
  - exists code. split; [done|]. apply set_language_lookup.
  - unfold confirmation. by rewrite Hlabel.
Qed.

Lemma keyboard_button_selects_its_language_witness :
  (mkInlineKeyboardButton "🇹🇷 Türkçe" "lang_tr" ∈ concat (language_rows LANGUAGES)) ∧
  (language_callback 42 "lang_tr" Mock.empty_world).1 = inr tt ∧
  replies (performed (language_callback 42 "lang_tr") Mock.empty_world) =
    [EditMessageText
       ("✅ Til o'rnatildi: " +:+ "🇹🇷 Türkçe" +:+ PyStr.nl +:+ PyStr.nl +:+
        "Matn yuboring!")].
Proof.
  split; [apply (bool_decide_unpack _); vm_compute; exact I|].
  pose proof (keyboard_button_selects_its_language
                (mkInlineKeyboardButton "🇹🇷 Türkçe" "lang_tr") 42 Mock.empty_world)
    as Hbutton.
  destruct Hbutton as (_ & Hret & _ & Hreply).
  - apply (bool_decide_unpack _). vm_compute. exact I.
  - split; [exact Hret|exact Hreply].
Defined.

Section Translation.

Context {Translator : Type}.
Variable import_GoogleTranslator : Exception + unit.
Variable GoogleTranslator : string → string → Exception + Translator.
Variable translate : Translator → string → Exception + string.

(** X5.  A chosen language is the one the next message is translated
    into.  After a callback whose token carries the code [code], a text
    of the same user that is no menu label makes the handler look the
    record up and, when the import of the library returns, construct the
    translator with source ["auto"] and target [code], whatever the
    user's language was before. *)
Theorem chosen_language_is_used (user_id : Z) (data code text : string) (w : World) :
  PyStr.split "_" data !! 1%nat = Some code →
  text ∉ menu_labels →
  import_GoogleTranslator = inr tt →
  ∃ rest,
    performed
      (handle_message import_GoogleTranslator GoogleTranslator translate
         user_id text)
      (language_callback user_id data w).2 =
    UserDataRead user_id true :: NewGoogleTranslator "auto" code :: rest.
Proof.
  intros Hcode Hfree Himport.
  rewrite (language_callback_parsed _ _ code) by done. simpl.
  rewrite (performed_app _ _ _ _ _
             (handle_message_free_text
                   import_GoogleTranslator GoogleTranslator translate
                user_id text _ Hfree) eq_refl).
  simpl. unfold stored_target, set_language. rewrite lookup_insert_eq. simpl.
  unfold translation_effects. rewrite Himport. eauto.
Qed.

(** X6.  The reply to a translation that succeeds.  For a text that is no
    menu label, when the library is imported, the translator is
    constructed and [translate] returns [translated], the handler returns
    normally and all it does is: look
    the record up, construct the translator, pass it the text, and reply
    with the header line, an empty line and [translated].  Nothing is
    logged. *)
Theorem successful_translation_reply
    (user_id : Z) (text translated : string) (translator : Translator) (w : World) :
  text ∉ menu_labels →
  import_GoogleTranslator = inr tt →
  GoogleTranslator "auto" (stored_target user_id (user_data w)) = inr translator →
  translate translator text = inr translated →
  (handle_message
        import_GoogleTranslator GoogleTranslator translate user_id text w).1 = inr tt ∧
  performed (handle_message
        import_GoogleTranslator GoogleTranslator translate user_id text) w =
    [UserDataRead user_id true;
     NewGoogleTranslator "auto" (stored_target user_id (user_data w));
     Translate text;
     ReplyText ("🌍 Tarjima:" +:+ PyStr.nl +:+ PyStr.nl +:+ translated) None].
Proof.
  intros Hfree Himport Hnew Htr.
  pose proof (handle_message_free_text
        import_GoogleTranslator GoogleTranslator translate
                user_id text w Hfree) as Hrun.
  rewrite (performed_app _ _ _ _ _ Hrun eq_refl), Hrun.
  unfold translation_effects. by rewrite Himport, Hnew, Htr.
Qed.

(** X7.  [translate_text] for a user without a record.  The lookup
    [user_data.get(user_id, {})] finds nothing and no record is created.
    When the import of the library returns, the translator is constructed
    with target ["en"]; when it raises, nothing is constructed and the
    error is logged and answered with the failure message.  Whether the
    library returns or raises, at any of its three steps, the function
    returns normally with exactly one reply. *)
Theorem translate_text_without_record (user_id : Z) (text : string) (w : World) :
  user_data w !! user_id = None →
  (translate_text import_GoogleTranslator GoogleTranslator translate
     user_id text w).1 = inr tt ∧
  user_data
    (translate_text import_GoogleTranslator GoogleTranslator translate
       user_id text w).2 = user_data w ∧
  match import_GoogleTranslator with
  | inr _ =>
      ∃ rest,
        performed
          (translate_text import_GoogleTranslator GoogleTranslator translate
             user_id text) w =
        UserDataRead user_id false :: NewGoogleTranslator "auto" "en" :: rest
  | inl e =>
      performed
        (translate_text import_GoogleTranslator GoogleTranslator translate
           user_id text) w =
      [UserDataRead user_id false;
       LoggerError ("Translation error: " +:+ exc_str e);
       ReplyText "❌ Tarjima xatoligi. Qaytadan urinib ko'ring." None]
  end ∧
  length
    (replies
       (performed
          (translate_text import_GoogleTranslator GoogleTranslator translate
             user_id text) w)) = 1%nat.
Proof.
  intros Hnone.
  pose proof (translate_text_run import_GoogleTranslator GoogleTranslator
                translate user_id text w) as Hrun.
  rewrite (performed_app _ _ _ _ _ Hrun eq_refl), Hrun.
  unfold stored_target, translation_effects. rewrite Hnone. simpl.
  split; [done|]. split; [done|].
  destruct import_GoogleTranslator as [e|[]]; [done|].
  split; [eauto|].
  destruct (GoogleTranslator "auto" "en") as [e|translator]; [done|].
  by destruct (translate translator text).
Qed.

End Translation.

Lemma chosen_language_is_used_witness :
  PyStr.split "_" "lang_ru" !! 1%nat = Some "ru" ∧
  ("Hello" ∉ menu_labels) ∧
  ∃ rest,
    performed (handle_message
          Mock.import_GoogleTranslator Mock.GoogleTranslator Mock.translate 42 "Hello")
      (language_callback 42 "lang_ru" Mock.empty_world).2 =
    UserDataRead 42 true :: NewGoogleTranslator "auto" "ru" :: rest.
Proof.
  split; [reflexivity|].
  split; [apply (bool_decide_unpack _); vm_compute; exact I|].
  apply (chosen_language_is_used
        Mock.import_GoogleTranslator Mock.GoogleTranslator Mock.translate
           42 "lang_ru" "ru" "Hello" Mock.empty_world).
  - reflexivity.
  - apply (bool_decide_unpack _). vm_compute. exact I.
  - reflexivity.
Defined.

Lemma successful_translation_reply_witness :
  ("Hello" ∉ menu_labels) ∧
  performed (handle_message
        Mock.import_GoogleTranslator Mock.GoogleTranslator Mock.translate 42 "Hello")
    Mock.empty_world =
    [UserDataRead 42 true;
     NewGoogleTranslator "auto" "en";
     Translate "Hello";
     ReplyText ("🌍 Tarjima:" +:+ PyStr.nl +:+ PyStr.nl +:+ "[en] Hello") None].
Proof.
  split; [apply (bool_decide_unpack _); vm_compute; exact I|].
  apply (successful_translation_reply
        Mock.import_GoogleTranslator Mock.GoogleTranslator Mock.translate
           42 "Hello" "[en] Hello" "en" Mock.empty_world).
  - apply (bool_decide_unpack _). vm_compute. exact I.
  - reflexivity.
  - reflexivity.
  - reflexivity.
Defined.

Lemma translate_text_without_record_witness :
  user_data Mock.empty_world !! 42%Z = None ∧
  user_data
    (translate_text
          Mock.import_GoogleTranslator Mock.GoogleTranslator Mock.translate 42 "Hello"
       Mock.empty_world).2 = user_data Mock.empty_world.
Proof.
  split; [reflexivity|].
  apply (translate_text_without_record
        Mock.import_GoogleTranslator Mock.GoogleTranslator Mock.translate
           42 "Hello" Mock.empty_world).
  reflexivity.
Defined.

(** ** Every event, and every sequence of events *)

Set Warnings "-clear-no-such-hyp".

Section Updates.

Context {Translator : Type}.
Variable import_GoogleTranslator : Exception + unit.
Variable GoogleTranslator : string → string → Exception + Translator.
Variable translate : Translator → string → Exception + string.




Lemma dispatch_dom ev w :
  dom (user_data (dispatch
        import_GoogleTranslator GoogleTranslator translate ev w).2) =
    list_to_set (omap event_user (List.filter creates_record [ev])) ∪
    dom (user_data w).
Proof.
  rewrite dispatch_store.
  assert (∀ u m, dom (with_record u m) = {[u]} ∪ dom m) as Hwith.
  { intros u m. unfold with_record.
    destruct (m !! u) as [pref|] eqn:E; [|by rewrite dom_insert_L].
    apply (elem_of_dom_2 (D:=gset Z)) in E. set_solver. }
  destruct ev as [u|u|u text|u data|u|u|u text|text]; simpl;
    rewrite ?Hwith; try set_solver.
  destruct (PyStr.startswith "lang_" data) eqn:Hmatch; simpl; [|set_solver].
  destruct (split_matched_second data Hmatch)
    as (rest & seg & segs & _ & _ & ->).
  unfold set_language. rewrite dom_insert_L. set_solver.
Qed.

(** X9.  Who has a record.  After any sequence of events, the users with
    a record are those who had one before together with the senders of
    the [/start] commands, text messages and matched language callbacks of
    the sequence (an edited [/start] among them): no record is ever
    removed, and none is created for anyone else ([/help] alone creates
    none, nor does an edited text or a channel post). *)
Theorem records_after_updates (evs : list Event) (w : World) :
  dom (user_data (process_updates
        import_GoogleTranslator GoogleTranslator translate evs w)) =
    dom (user_data w) ∪
    list_to_set (omap event_user (List.filter creates_record evs)).
Proof.
  revert w. induction evs as [|ev evs IH]; intros w; simpl.
  - set_solver.
  - rewrite IH, dispatch_dom. simpl.
    destruct (creates_record ev); simpl; [|set_solver].
    destruct (event_user ev); simpl; set_solver.
Qed.

Lemma dispatch_modes ev w :
  map_Forall (λ _ pref, mode pref = "translate") (user_data w) →
  map_Forall (λ _ pref, mode pref = "translate")
    (user_data (dispatch
          import_GoogleTranslator GoogleTranslator translate ev w).2).
Proof.
  intros Hmodes. rewrite dispatch_store.
  assert (∀ u, map_Forall (λ _ pref, mode pref = "translate")
                 (with_record u (user_data w))) as Hwith.
  { intros u. unfold with_record.
    destruct (user_data w !! u); [done|]. by apply map_Forall_insert_2. }
  destruct ev as [u|u|u text|u data|u|u|u text|text]; try done.
  destruct (PyStr.startswith "lang_" data); [|done].
  destruct (PyStr.split "_" data !! 1%nat) as [code|]; [|done].
  unfold set_language. apply map_Forall_insert_2; [|done]. simpl.
  destruct (user_data w !! u) as [pref|] eqn:E; [|done].
  by apply (Hmodes u pref).
Qed.

(** X10.  The mode of a record never changes.  If every record has the
    mode ['translate'], as at start-up when there is none, then so has
    every record after any sequence of events. *)
Theorem mode_is_always_translate (evs : list Event) (w : World) :
  map_Forall (λ _ pref, mode pref = "translate") (user_data w) →
  map_Forall (λ _ pref, mode pref = "translate")
    (user_data (process_updates
          import_GoogleTranslator GoogleTranslator translate evs w)).
Proof.
  revert w. induction evs as [|ev evs IH]; intros w Hmodes; simpl; [done|].
  by apply IH, dispatch_modes.
Qed.

Lemma dispatch_stored_target u ev w :
  stored_target u (user_data (dispatch
        import_GoogleTranslator GoogleTranslator translate ev w).2) =
    default (stored_target u (user_data w)) (choice_of u ev).
Proof.
  rewrite dispatch_store.
  assert (∀ v, stored_target u (with_record v (user_data w)) =
               stored_target u (user_data w)) as Hwith.
  { intros v. destruct (decide (u = v)) as [->|Hne].
    - apply stored_target_with_record.
    - unfold stored_target. by rewrite with_record_other. }
  destruct ev as [v|v|v text|v data|v|v|v text|text]; simpl; try done.
  unfold parsed_code.
  destruct (PyStr.startswith "lang_" data); [|by case_bool_decide].
  destruct (PyStr.split "_" data !! 1%nat) as [code|]; [|by case_bool_decide].
  unfold stored_target, set_language.
  case_bool_decide as Huser.
  - subst v. by rewrite lookup_insert_eq.
  - by rewrite lookup_insert_ne.
Qed.

(** X11.  The last choice wins.  After any sequence of events, the target
    language used for a user's translations is the code of the user's most
    recent matched language callback in the sequence; when there is none
    it is what it was before (["en"] for a user without a record).  No
    event of another user and no [/start], [/help] or text message changes
    it. *)
Theorem last_choice_wins (user_id : Z) (evs : list Event) (w : World) :
  stored_target user_id
    (user_data (process_updates
          import_GoogleTranslator GoogleTranslator translate evs w)) =
  default (stored_target user_id (user_data w)) (last_choice user_id evs).
Proof.
  revert w. induction evs as [|ev evs IH]; intros w; simpl; [done|].
  rewrite IH. destruct (last_choice user_id evs) as [code|]; simpl; [done|].
  apply dispatch_stored_target.
Qed.

End Updates.

Lemma mode_is_always_translate_witness :
  map_Forall (λ _ pref, mode pref = "translate") (user_data Mock.empty_world) ∧
  map_Forall (λ _ pref, mode pref = "translate")
    (user_data
       (process_updates
             Mock.import_GoogleTranslator Mock.GoogleTranslator Mock.translate
          [StartCommand 1; CallbackQuery 1 "lang_ru"; TextMessage 2 "Hello"]
          Mock.empty_world)).
Proof.
  split; [apply map_Forall_empty|].
  apply (mode_is_always_translate
        Mock.import_GoogleTranslator Mock.GoogleTranslator Mock.translate
           [StartCommand 1; CallbackQuery 1 "lang_ru"; TextMessage 2 "Hello"]
           Mock.empty_world).
  apply map_Forall_empty.
Defined.

(** ** The keyboard of any catalog *)

Lemma length_rows_of_two {A} (l : list A) :
  length (rows_of_two l) = Nat.div2 (S (length l)).
Proof.
  induction l as [|a|a b l IH] using list_pair_ind; simpl; [done..|].
  by rewrite IH.
Qed.

Lemma rows_of_two_bounds {A} (l : list A) :
  Forall (λ row, (1 ≤ length row ≤ 2)%nat) (rows_of_two l).
Proof.
  induction l as [|a|a b l IH] using list_pair_ind; simpl.
  - constructor.
  - repeat constructor.
  - constructor; [simpl; lia|done].
Qed.

Lemma rows_of_two_full {A} (l : list A) :
  Forall (λ row, length row = 2%nat) (removelast (rows_of_two l)).
Proof.
  induction l as [|a|a b l IH] using list_pair_ind; simpl; [constructor..|].
  destruct (rows_of_two l) as [|row rows]; [constructor|].
  by constructor.
Qed.

(** X12.  The loop of [get_language_keyboard] on a catalog of any size.
    Read row by row, the buttons are those of the catalog entries in
    order, none lost and none repeated; there are as many rows as half
    the number of entries rounded up; every row has one or two buttons,
    and every row but the last has two.  For an odd number of entries the
    guard [i + 1 < len(langs)] makes the last row a single button, and the
    empty catalog gives no row. *)
Theorem language_rows_layout (langs : list (string * string)) :
  concat (language_rows langs) = language_button <$> langs ∧
  length (language_rows langs) = Nat.div2 (S (length langs)) ∧
  Forall (λ row, (1 ≤ length row ≤ 2)%nat) (language_rows langs) ∧
  Forall (λ row, length row = 2%nat) (removelast (language_rows langs)).
Proof.
  rewrite language_rows_by_two.
  split; [apply concat_rows_of_two|]. split.
  - by rewrite length_rows_of_two, length_fmap.
  - split; [apply rows_of_two_bounds|apply rows_of_two_full].
Qed.

(** ** Start-up *)


